(** * p5js-course: the live code editor widget and the theme toggle

    A shallow embedding of [docs/js/editor.js] (class [P5CodeEditor] and the
    script of the preview document it generates) and of [docs/js/theme.js]
    (the click handler of the theme toggle), followed by the properties of
    the specification that were checked against them. *)

From Stdlib Require Import ZArith Ascii String List Lia.
From stdpp Require Import base option list strings gmap pretty.

Local Open Scope string_scope.
Local Open Scope list_scope.
Local Open Scope stdpp_scope.

(** ** JavaScript values and completions *)

Module Js.

(** Outcome of evaluating a JavaScript expression or statement: a value,
    or an exception (carrying the text of its message). *)
Inductive Completion (A : Type) : Type :=
| Normal (a : A)
| Throw (e : string).
Arguments Normal {A} a.
Arguments Throw {A} e.

Definition cmap {A B} (f : A -> B) (c : Completion A) : Completion B :=
  match c with
  | Normal a => Normal (f a)
  | Throw e => Throw e
  end.

Definition cbind {A B} (c : Completion A) (k : A -> Completion B) : Completion B :=
  match c with
  | Normal a => k a
  | Throw e => Throw e
  end.

Definition is_normal {A} (c : Completion A) : bool :=
  match c with
  | Normal _ => true
  | Throw _ => false
  end.

(** The values that [postMessage] can carry between the frame and the
    page (structured-clone data): no functions, no symbols.  Numbers are
    the integer-valued ones; objects are plain objects, their own
    properties kept in insertion order. *)
#[local] Set Warnings "-register-all".
Inductive JsValue : Type :=
| JUndefined
| JNull
| JBool (b : bool)
| JNum (z : Z)
| JStr (s : string)
| JArr (items : list JsValue)
| JObj (props : list (string * JsValue)).

(** [ToBoolean]: what [if (v)] and [v && ...] test. *)
Definition truthy (v : JsValue) : bool :=
  match v with
  | JUndefined | JNull => false
  | JBool b => b
  | JNum z => negb (Z.eqb z 0)
  | JStr s => negb (String.eqb s "")
  | JArr _ | JObj _ => true
  end.

Fixpoint assoc (k : string) (props : list (string * JsValue)) : option JsValue :=
  match props with
  | [] => None
  | (k', v) :: rest => if String.eqb k k' then Some v else assoc k rest
  end.

(** [v.name] for the property names the widget reads ([type], [method],
    [args]): undefined and null have no properties (a TypeError), a plain
    object yields its own property, and primitives and arrays carry none
    of these names. *)
Definition get (v : JsValue) (name : string) : Completion JsValue :=
  match v with
  | JUndefined | JNull => Throw "TypeError: Cannot read properties of undefined"
  | JObj props => Normal (default JUndefined (assoc name props))
  | _ => Normal JUndefined
  end.

(** [v === s] for a string literal [s]. *)
Definition strict_eq_str (v : JsValue) (s : string) : bool :=
  match v with
  | JStr s' => String.eqb s' s
  | _ => false
  end.

Fixpoint join_strings (sep : string) (l : list string) : string :=
  match l with
  | [] => ""
  | [s] => s
  | s :: rest => s +:+ sep +:+ join_strings sep rest
  end.

Fixpoint sequence {A} (l : list (Completion A)) : Completion (list A) :=
  match l with
  | [] => Normal []
  | c :: rest =>
      match c with
      | Throw e => Throw e
      | Normal a => cmap (cons a) (sequence rest)
      end
  end.

(** How [Array.prototype.join] prints one element, given the
    conversion of the others. *)
Definition element_text (conv : JsValue -> Completion string) (x : JsValue)
  : Completion string :=
  match x with
  | JUndefined | JNull => Normal ""
  | _ => conv x
  end.

(** [ToString], as a template literal or string concatenation applies
    it.  A cloned object that carries an own [toString] property (which
    cannot be a function) has no usable conversion and throws; any other
    plain object prints as [[object Object]]; an array prints its
    elements joined with commas, undefined and null as empty. *)
Fixpoint to_string (v : JsValue) : Completion string :=
  match v with
  | JUndefined => Normal "undefined"
  | JNull => Normal "null"
  | JBool true => Normal "true"
  | JBool false => Normal "false"
  | JNum z => Normal (pretty z)
  | JStr s => Normal s
  | JArr items =>
      cmap (join_strings ",")
        (sequence (map (element_text to_string) items))
  | JObj props =>
      match assoc "toString" props with
      | Some _ => Throw "TypeError: Cannot convert object to primitive value"
      | None => Normal "[object Object]"
      end
  end.

(** [v.join(sep)]: only an array has a [join] method among cloned
    values. *)
Definition join (v : JsValue) (sep : string) : Completion string :=
  match v with
  | JArr items => cmap (join_strings sep) (sequence (map (element_text to_string) items))
  | JUndefined | JNull => Throw "TypeError: Cannot read properties of undefined (reading 'join')"
  | _ => Throw "TypeError: args.join is not a function"
  end.

End Js.

(** ** theme.js *)

Module Theme.

(** What the click handler reads and writes: the attributes of the
    document element, the local storage of the page, and the text of the
    toggle button. *)
Record Page := {
  attributes : gmap string string;
  localStorage : gmap string string;
  textContent : string
}.

Definition sun : string := "☀️".
Definition moon : string := "🌙".

(** The listener registered on [themeToggle] for [click]. *)
Definition click (p : Page) : Page :=
  let currentTheme := attributes p !! "data-theme" in
  if bool_decide (currentTheme = Some "light") then
    {| attributes := delete "data-theme" (attributes p);
       localStorage := <["theme" := "dark"]> (localStorage p);
       textContent := moon |}
  else
    {| attributes := <["data-theme" := "light"]> (attributes p);
       localStorage := <["theme" := "light"]> (localStorage p);
       textContent := sun |}.

(** The [DOMContentLoaded] listener up to the registration of [click]:
    without a toggle element nothing happens, otherwise the icon follows
    the current attribute. *)
Definition onDOMContentLoaded (themeToggle : bool) (p : Page) : Page :=
  if negb themeToggle then p
  else if bool_decide (attributes p !! "data-theme" = Some "light") then
    {| attributes := attributes p;
       localStorage := localStorage p;
       textContent := sun |}
  else p.

End Theme.

(** ** The preview document *)

Module Preview.
Import Js.

Definition dq : string := String (ascii_of_nat 34) EmptyString.

Definition html_before_code : string :=
  "
<!DOCTYPE html>
<html>
<head>
    <meta charset=" +:+ dq +:+ "UTF-8" +:+ dq +:+ ">
    <script src=" +:+ dq +:+ "https://cdnjs.cloudflare.com/ajax/libs/p5.js/1.9.0/p5.min.js" +:+ dq +:+ "></script>
    <style>
        * { margin: 0; padding: 0; box-sizing: border-box; }
        body { 
            background: #000; 
            overflow: hidden;
            display: flex;
            justify-content: center;
            align-items: center;
            min-height: 100vh;
        }
        canvas { 
            display: block;
        }
    </style>
</head>
<body>
    <script>
        // Override console methods to send messages to parent
        (function() {
            const originalConsole = {
                log: console.log,
                error: console.error,
                warn: console.warn,
                info: console.info
            };
            
            function sendToParent(method, args) {
                try {
                    window.parent.postMessage({
                        type: 'console',
                        method: method,
                        args: Array.from(args).map(arg => {
                            if (typeof arg === 'object') {
                                try {
                                    return JSON.stringify(arg);
                                } catch(e) {
                                    return String(arg);
                                }
                            }
                            return String(arg);
                        })
                    }, '*');
                } catch(e) {}
            }
            
            console.log = function() {
                sendToParent('log', arguments);
                originalConsole.log.apply(console, arguments);
            };
            
            console.error = function() {
                sendToParent('error', arguments);
                originalConsole.error.apply(console, arguments);
            };
            
            console.warn = function() {
                sendToParent('warn', arguments);
                originalConsole.warn.apply(console, arguments);
            };
            
            console.info = function() {
                sendToParent('info', arguments);
                originalConsole.info.apply(console, arguments);
            };
            
            window.onerror = function(message, source, lineno, colno, error) {
                sendToParent('error', ['Error: ' + message + ' (line ' + lineno + ')']);
                return false;
            };
        })();
    </script>
    <script>
        try {
            ".

Definition html_after_code : string :=
  "
        } catch(err) {
            console.error('Runtime Error: ' + err.message);
            function setup() {
                createCanvas(400, 400);
                background(40);
                fill(255, 100, 100);
                textAlign(CENTER, CENTER);
                textSize(16);
                text('Error: ' + err.message, width/2, height/2);
                noLoop();
            }
        }
    </script>
</body>
</html>".

(** [generatePreviewHTML(code)]: the template literal with [code]
    spliced into the [try] block of the second script. *)
Definition generatePreviewHTML (code : string) : string :=
  html_before_code +:+ code +:+ html_after_code.

(** *** The console shim of the first script *)

(** An argument of a console call inside the frame can be any value of
    the sketch (a function, a cyclic object, a DOM node, ...).  The shim
    applies three operations to it, and the argument is represented by
    what they yield: [typeof arg], [JSON.stringify(arg)] (a string,
    undefined, or an exception) and [String(arg)] (a string or an
    exception). *)
Record FrameArg := {
  arg_typeof : string;
  arg_json : Completion (option string);
  arg_string : Completion string
}.

Definition backslash : string := String (ascii_of_nat 92) EmptyString.

Definition hex_digit (n : nat) : string :=
  String (nth n (list_ascii_of_string "0123456789abcdef") "0"%char) EmptyString.

(** [QuoteJSONString] on one character. *)
Definition quote_char (c : ascii) : string :=
  let n := nat_of_ascii c in
  if Nat.eqb n 8 then backslash +:+ "b"
  else if Nat.eqb n 9 then backslash +:+ "t"
  else if Nat.eqb n 10 then backslash +:+ "n"
  else if Nat.eqb n 12 then backslash +:+ "f"
  else if Nat.eqb n 13 then backslash +:+ "r"
  else if Nat.eqb n 34 then backslash +:+ dq
  else if Nat.eqb n 92 then backslash +:+ backslash
  else if Nat.ltb n 32 then
    backslash +:+ "u00" +:+ hex_digit (n / 16) +:+ hex_digit (n mod 16)
  else String c EmptyString.

Fixpoint quote_chars (s : string) : string :=
  match s with
  | EmptyString => EmptyString
  | String c rest => quote_char c +:+ quote_chars rest
  end.

(** A string primitive as an argument. *)
Definition string_arg (s : string) : FrameArg :=
  {| arg_typeof := "string";
     arg_json := Normal (Some (dq +:+ quote_chars s +:+ dq));
     arg_string := Normal s |}.

(** The arrow function mapped over the arguments in [sendToParent]. *)
Definition stringify (arg : FrameArg) : Completion JsValue :=
  if String.eqb (arg_typeof arg) "object" then
    match arg_json arg with
    | Normal (Some s) => Normal (JStr s)
    | Normal None => Normal JUndefined
    | Throw _ => cmap JStr (arg_string arg)
    end
  else cmap JStr (arg_string arg).

Definition console_message (method : string) (entries : list JsValue) : JsValue :=
  JObj [("type", JStr "console"); ("method", JStr method); ("args", JArr entries)].

(** [sendToParent(method, args)]: the message handed to
    [window.parent.postMessage], or none when an exception was swallowed
    by the enclosing [try]. *)
Definition sendToParent (method : string) (args : list FrameArg) : option JsValue :=
  match sequence (map stringify args) with
  | Normal entries => Some (console_message method entries)
  | Throw _ => None
  end.

(** The four console methods that the shim replaces. *)
Inductive Method := log | error | warn | info.

Definition method_name (m : Method) : string :=
  match m with
  | log => "log"
  | error => "error"
  | warn => "warn"
  | info => "info"
  end.

(** A value caught by [catch(err)], represented by what
    ['...' + err.message] does with it: the text appended, or an
    exception (reading [message] from null or undefined, or a message
    with no string conversion). *)
Record Thrown := { message_text : Completion string }.

(** The frame as far as the two scripts change it: the messages posted
    to the parent (oldest first), the calls passed on to the original
    console, and the [err] captured by the fallback [setup] once the
    [catch] block has declared it. *)
Record Frame := {
  posted : list JsValue;
  devtools : list (Method * list FrameArg);
  setup : option Thrown
}.

Definition blank : Frame := {| posted := []; devtools := []; setup := None |}.

(** [console.log], [console.error], [console.warn], [console.info]
    after the shim is installed. *)
Definition console (m : Method) (args : list FrameArg) (f : Frame) : Frame :=
  {| posted := posted f ++ option_list (sendToParent (method_name m) args);
     devtools := devtools f ++ [(m, args)];
     setup := setup f |}.

(** [window.onerror] as installed by the shim. *)
Definition window_onerror (message : string) (lineno : Z) (f : Frame) : Frame :=
  {| posted := posted f ++
       option_list (sendToParent "error"
         [string_arg ("Error: " +:+ message +:+ " (line " +:+ pretty lineno +:+ ")")]);
     devtools := devtools f;
     setup := setup f |}.

(** *** The second script: the sketch inside [try]/[catch] *)



(** What evaluating the spliced sketch code does, as far as the wrapper
    can observe it: the calls of the four console methods it makes, in
    order, and whether it then completes or throws. *)
Record Behaviour := {
  calls : list (Method * list FrameArg);
  outcome : option Thrown
}.

Definition run_calls (cs : list (Method * list FrameArg)) (f : Frame) : Frame :=
  fold_left (fun f c => console (fst c) (snd c) f) cs f.

(** [try { code } catch(err) { console.error(...); function setup() {...} }].
    The declaration of [setup] takes effect when control reaches it, that
    is after the [console.error] line has completed. *)
Definition script (b : Behaviour) (f : Frame) : Frame * Completion unit :=
  let f1 := run_calls (calls b) f in
  match outcome b with
  | None => (f1, Normal tt)
  | Some err =>
      match message_text err with
      | Throw e => (f1, Throw e)
      | Normal m =>
          let f2 := console error [string_arg ("Runtime Error: " +:+ m)] f1 in
          ({| posted := posted f2; devtools := devtools f2; setup := Some err |},
           Normal tt)
      end
  end.

(** Loading the document: the shim, then the second script; an exception
    that leaves the script reaches [window.onerror] with the line the
    browser reports. *)
Definition load (b : Behaviour) (lineno : Z) : Frame :=
  let '(f, c) := script b blank in
  match c with
  | Normal _ => f
  | Throw e => window_onerror e lineno f
  end.

End Preview.

(** ** editor.js: class P5CodeEditor *)

Module Editor.
Import Js.

(** The CodeMirror instance behind [this.editor], through the two
    methods the widget calls on it.  The widget relies on [getValue]
    returning the text last given to [setValue]. *)
Class EditorBuffer (B : Type) := {
  fromTextArea : B;
  setValue : string -> B -> B;
  getValue : B -> string;
  getValue_setValue : forall code b, getValue (setValue code b) = code
}.

(** The plainest buffer: the text itself. *)
#[export] Instance string_buffer : EditorBuffer string := {|
  fromTextArea := "";
  setValue code _ := code;
  getValue b := b;
  getValue_setValue code _ := eq_refl
|}.

(** [this.options]: the defaults overridden by the caller's object. *)
Record Options := {
  theme : string;
  fontSize : Z;
  lineNumbers : bool;
  autoRun : bool;
  showConsole : bool;
  previewWidth : Z;
  previewHeight : Z;
  filename : option string;
  initialCode : option string
}.

Definition default_options : Options :=
  {| theme := "tomorrow-night-eighties";
     fontSize := 14;
     lineNumbers := true;
     autoRun := true;
     showConsole := true;
     previewWidth := 400;
     previewHeight := 400;
     filename := None;
     initialCode := None |}.

(** A child of the [.console-messages] element. *)
Record Element := { className : string; textContent : string }.

Definition placeholder : Element :=
  {| className := "console-placeholder";
     textContent := "Konsol çıktısı burada görünecek..." |}.

(** An entry of [this.consoleMessages]: the object [{ method, args }]. *)
Record LogEntry := { method : JsValue; args : JsValue }.

Record Example := { name : string; code : string }.

(** A button of the tab strip: its label and whether its class list
    holds [active]. *)
Record Tab := { label : string; active : bool }.

(** What the widget did, oldest first: the calls of [runCode] and
    [clearConsole], the documents given to the preview frame, the
    [message] events its listener received, the texts given to the
    clipboard. *)
Inductive Effect :=
| ERunCode
| EClearConsole
| ELoadPreview (html : string)
| EMessage (data : JsValue)
| EClipboard (text : string).

Section Widget.
Context {B : Type} `{EditorBuffer B}.

Record P5CodeEditor := {
  options : Options;
  editor : B;
  originalCode : string;
  consoleMessages : list LogEntry;
  consoleMessagesEl : option (list Element);
  examples : option (list Example);
  examplesTabs_display : string;
  examplesTabs : list Tab;
  previewFrame_src : option string;
  effects : list Effect
}.

Definition with_editor (b : B) (w : P5CodeEditor) : P5CodeEditor :=
  {| options := options w; editor := b; originalCode := originalCode w;
     consoleMessages := consoleMessages w;
     consoleMessagesEl := consoleMessagesEl w; examples := examples w;
     examplesTabs_display := examplesTabs_display w;
     examplesTabs := examplesTabs w;
     previewFrame_src := previewFrame_src w; effects := effects w |}.

Definition with_originalCode (c : string) (w : P5CodeEditor) : P5CodeEditor :=
  {| options := options w; editor := editor w; originalCode := c;
     consoleMessages := consoleMessages w;
     consoleMessagesEl := consoleMessagesEl w; examples := examples w;
     examplesTabs_display := examplesTabs_display w;
     examplesTabs := examplesTabs w;
     previewFrame_src := previewFrame_src w; effects := effects w |}.

Definition with_consoleMessages (l : list LogEntry) (w : P5CodeEditor) : P5CodeEditor :=
  {| options := options w; editor := editor w; originalCode := originalCode w;
     consoleMessages := l;
     consoleMessagesEl := consoleMessagesEl w; examples := examples w;
     examplesTabs_display := examplesTabs_display w;
     examplesTabs := examplesTabs w;
     previewFrame_src := previewFrame_src w; effects := effects w |}.

Definition with_consoleMessagesEl (p : option (list Element)) (w : P5CodeEditor)
  : P5CodeEditor :=
  {| options := options w; editor := editor w; originalCode := originalCode w;
     consoleMessages := consoleMessages w;
     consoleMessagesEl := p; examples := examples w;
     examplesTabs_display := examplesTabs_display w;
     examplesTabs := examplesTabs w;
     previewFrame_src := previewFrame_src w; effects := effects w |}.

Definition with_examples (l : option (list Example)) (w : P5CodeEditor) : P5CodeEditor :=
  {| options := options w; editor := editor w; originalCode := originalCode w;
     consoleMessages := consoleMessages w;
     consoleMessagesEl := consoleMessagesEl w; examples := l;
     examplesTabs_display := examplesTabs_display w;
     examplesTabs := examplesTabs w;
     previewFrame_src := previewFrame_src w; effects := effects w |}.

Definition with_display (d : string) (w : P5CodeEditor) : P5CodeEditor :=
  {| options := options w; editor := editor w; originalCode := originalCode w;
     consoleMessages := consoleMessages w;
     consoleMessagesEl := consoleMessagesEl w; examples := examples w;
     examplesTabs_display := d;
     examplesTabs := examplesTabs w;
     previewFrame_src := previewFrame_src w; effects := effects w |}.

Definition with_tabs (t : list Tab) (w : P5CodeEditor) : P5CodeEditor :=
  {| options := options w; editor := editor w; originalCode := originalCode w;
     consoleMessages := consoleMessages w;
     consoleMessagesEl := consoleMessagesEl w; examples := examples w;
     examplesTabs_display := examplesTabs_display w;
     examplesTabs := t;
     previewFrame_src := previewFrame_src w; effects := effects w |}.

Definition with_src (s : option string) (w : P5CodeEditor) : P5CodeEditor :=
  {| options := options w; editor := editor w; originalCode := originalCode w;
     consoleMessages := consoleMessages w;
     consoleMessagesEl := consoleMessagesEl w; examples := examples w;
     examplesTabs_display := examplesTabs_display w;
     examplesTabs := examplesTabs w;
     previewFrame_src := s; effects := effects w |}.

Definition with_effects (e : list Effect) (w : P5CodeEditor) : P5CodeEditor :=
  {| options := options w; editor := editor w; originalCode := originalCode w;
     consoleMessages := consoleMessages w;
     consoleMessagesEl := consoleMessagesEl w; examples := examples w;
     examplesTabs_display := examplesTabs_display w;
     examplesTabs := examplesTabs w;
     previewFrame_src := previewFrame_src w; effects := e |}.

(** *** Methods run on the widget and may throw *)

Definition M (A : Type) : Type := P5CodeEditor -> Completion A * P5CodeEditor.

Definition ret {A} (a : A) : M A := fun w => (Normal a, w).

Definition bind {A C} (m : M A) (k : A -> M C) : M C :=
  fun w =>
    match m w with
    | (Normal a, w') => k a w'
    | (Throw e, w') => (Throw e, w')
    end.

Definition modify (f : P5CodeEditor -> P5CodeEditor) : M unit :=
  fun w => (Normal tt, f w).

Definition read {A} (f : P5CodeEditor -> A) : M A :=
  fun w => (Normal (f w), w).

(** An expression that may throw, evaluated inside a method. *)
Definition eval {A} (c : Completion A) : M A := fun w => (c, w).

Definition record (e : Effect) : M unit :=
  modify (fun w => with_effects (effects w ++ [e]) w).

Notation "x <- c1 ;; c2" := (bind c1 (fun x => c2))
  (at level 100, c1 at next level, right associativity).
Notation "c1 ;; c2" := (bind c1 (fun _ => c2))
  (at level 100, right associativity).

(** *** The methods of the class *)

Definition setCode (code : string) : M unit :=
  modify (with_originalCode code) ;;
  modify (fun w => with_editor (setValue code (editor w)) w).

Definition getCode : M string :=
  read (fun w => getValue (editor w)).

Definition clearConsole : M unit :=
  record EClearConsole ;;
  modify (fun w =>
            match consoleMessagesEl w with
            | Some _ => with_consoleMessagesEl (Some []) w
            | None => w
            end) ;;
  modify (with_consoleMessages []).

(** The frame is given a blob URL; [previewFrame_src] holds the
    document behind it. *)
Definition runCode : M unit :=
  record ERunCode ;;
  code <- getCode ;;
  clearConsole ;;
  let html := Preview.generatePreviewHTML code in
  modify (with_src (Some html)) ;;
  record (ELoadPreview html).

Definition resetCode : M unit :=
  original <- read originalCode ;;
  if negb (String.eqb original "") then
    modify (fun w => with_editor (setValue original (editor w)) w) ;;
    runCode
  else ret tt.

(** The text is handed to the clipboard; the confirmation on the
    button is shown and removed by timers and is left out. *)
Definition copyCode : M unit :=
  code <- getCode ;;
  record (EClipboard code).

(** The new element is built first ([className] from the template
    literal, [textContent] from [args.join(' ')]), then appended to the
    panel, then the entry is pushed.  Scrolling the panel to its end
    changes nothing that is kept here. *)
Definition addConsoleMessage (method args : JsValue) : M unit :=
  panel <- read consoleMessagesEl ;;
  match panel with
  | None => ret tt
  | Some children =>
      kind <- eval (to_string method) ;;
      line <- eval (join args " ") ;;
      modify (with_consoleMessagesEl
                (Some (children ++
                         [{| className := "console-message " +:+ kind;
                             textContent := line |}]))) ;;
      modify (fun w =>
                with_consoleMessages
                  (consoleMessages w ++ [{| method := method; args := args |}]) w)
  end.

(** The listener that [bindEvents] registers on [window] for
    [message]; [data] is [event.data]. *)
Definition onMessage (data : JsValue) : M unit :=
  record (EMessage data) ;;
  if truthy data then
    type <- eval (get data "type") ;;
    if strict_eq_str type "console" then
      method <- eval (get data "method") ;;
      args <- eval (get data "args") ;;
      addConsoleMessage method args
    else ret tt
  else ret tt.

Definition loadExample (index : nat) : M unit :=
  current <- read examples ;;
  match current with
  | None => eval (Throw "TypeError: Cannot read properties of undefined")
  | Some list =>
      match list !! index with
      | None => ret tt
      | Some example =>
          modify (fun w =>
                    with_tabs
                      (imap (fun i tab =>
                               {| label := label tab; active := Nat.eqb i index |})
                            (examplesTabs w)) w) ;;
          setCode (code example) ;;
          runCode
      end
  end.

(** An absent list and an empty one are both given as [[]]. *)
Definition setExamples (list : list Example) : M unit :=
  if Nat.eqb (length list) 0 then
    modify (with_display "none")
  else
    modify (with_display "flex") ;;
    modify (with_tabs []) ;;
    modify (with_examples (Some list)) ;;
    modify (with_tabs
              (imap (fun index example =>
                       {| label := name example; active := Nat.eqb index 0 |})
                    list)) ;;
    loadExample 0.

(** *** Construction *)

(** The widget after the field initialisers of the constructor,
    [createStructure], [initCodeMirror] and [bindEvents].  The file name
    and the sizes spliced into the markup are taken to be plain text, so
    that the panel exists exactly when [showConsole] is set. *)
Definition created (o : Options) : P5CodeEditor :=
  {| options := o;
     editor := fromTextArea;
     originalCode := "";
     consoleMessages := [];
     consoleMessagesEl := if showConsole o then Some [placeholder] else None;
     examples := None;
     examplesTabs_display := "none";
     examplesTabs := [];
     previewFrame_src := None;
     effects := [] |}.

Definition init (o : Options) : M unit :=
  match initialCode o with
  | Some text =>
      if autoRun o && negb (String.eqb text "") then
        setCode text ;; runCode
      else ret tt
  | None => ret tt
  end.

(** [new P5CodeEditor(containerId, options)]; without the container
    element the constructor returns before any field is set. *)
Definition construct (container : bool) (o : Options) : option P5CodeEditor :=
  if container then Some (snd (init o (created o))) else None.

(** *** What can happen to a widget *)

(** The calls of the methods, an edit of the buffer by the user, and the
    arrival of a [message] event.  [destroy] ends the life of the widget
    and is not among them. *)

Inductive Op :=
| OpSetCode (code : string)
| OpEdit (change : B -> B)
| OpRunCode
| OpResetCode
| OpCopyCode
| OpClearConsole
| OpSetExamples (list : list Example)
| OpLoadExample (index : nat)
| OpMessage (data : JsValue).

Definition perform (op : Op) : M unit :=
  match op with
  | OpSetCode code => setCode code
  | OpEdit change => modify (fun w => with_editor (change (editor w)) w)
  | OpRunCode => runCode
  | OpResetCode => resetCode
  | OpCopyCode => copyCode
  | OpClearConsole => clearConsole
  | OpSetExamples list => setExamples list
  | OpLoadExample index => loadExample index
  | OpMessage data => onMessage data
  end.

(** An exception raised by a method or a listener is reported by the
    browser; the widget stays as the method left it. *)
Definition step (w : P5CodeEditor) (op : Op) : P5CodeEditor :=
  snd (perform op w).

Definition run (ops : list Op) (w : P5CodeEditor) : P5CodeEditor :=
  fold_left step ops w.

(** Delivery of the messages a frame posted, in posting order. *)
Definition deliver (messages : list JsValue) (w : P5CodeEditor) : P5CodeEditor :=
  run (map OpMessage messages) w.

End Widget.

Arguments P5CodeEditor B : clear implicits.
Arguments M B A : clear implicits.
Arguments Op B : clear implicits.

End Editor.

(** ** Notions used to state the properties *)

Module Props.
Import Js Editor.

(** The message shape of the external interface:
    [{ type: "console", method: log|error|warn|info, args: strings }]. *)
Definition is_forward_method (v : JsValue) : bool :=
  strict_eq_str v "log" || strict_eq_str v "error"
  || strict_eq_str v "warn" || strict_eq_str v "info".

Definition is_string (v : JsValue) : bool :=
  match v with
  | JStr _ => true
  | _ => false
  end.

Definition is_string_array (v : JsValue) : bool :=
  match v with
  | JArr items => forallb is_string items
  | _ => false
  end.

Definition field (data : JsValue) (name : string) : JsValue :=
  match get data name with
  | Normal v => v
  | Throw _ => JUndefined
  end.

Definition console_forward_shape (data : JsValue) : bool :=
  match data with
  | JObj _ =>
      strict_eq_str (field data "type") "console"
      && is_forward_method (field data "method")
      && is_string_array (field data "args")
  | _ => false
  end.

(** The test of the listener: [event.data && event.data.type === 'console']. *)
Definition is_console (data : JsValue) : bool :=
  truthy data && strict_eq_str (field data "type") "console".

(** The entry a received message leaves in the log of a widget that has
    a console panel: none unless the listener passes it on and the new
    panel element can be built. *)
Definition accepted (data : JsValue) : option LogEntry :=
  if is_console data
     && is_normal (to_string (field data "method"))
     && is_normal (join (field data "args") " ")
  then Some {| method := field data "method"; args := field data "args" |}
  else None.

(** The data of the [message] events received after the most recent call
    of [clearConsole] or [runCode], in arrival order. *)
Definition since_step (acc : list JsValue) (e : Effect) : list JsValue :=
  match e with
  | ERunCode | EClearConsole => []
  | EMessage data => acc ++ [data]
  | ELoadPreview _ | EClipboard _ => acc
  end.

Definition received_since_clear_or_run (history : list Effect) : list JsValue :=
  fold_left since_step history [].


(** The effects of one call of [runCode] on a buffer holding [code]. *)
Definition one_run (code : string) : list Effect :=
  [ERunCode; EClearConsole; ELoadPreview (Preview.generatePreviewHTML code)].

(** The tab strip shows one tab per example of the current list. *)
Definition tabs_match {B} (w : P5CodeEditor B) : Prop :=
  match examples w with
  | Some list => label <$> examplesTabs w = name <$> list
  | None => True
  end.

(** The panel after [innerHTML = '']. *)
Definition emptied (panel : option (list Element)) : option (list Element) :=
  match panel with
  | Some _ => Some []
  | None => None
  end.

(** The messages that a sequence of console calls posts to the parent. *)
Definition messages_of (cs : list (Preview.Method * list Preview.FrameArg))
  : list JsValue :=
  flat_map (fun c => option_list
                       (Preview.sendToParent (Preview.method_name (fst c)) (snd c)))
           cs.

(** The console as one operation leaves it: cleared, or as it was. *)
Definition console_cleared {B} (w w' : P5CodeEditor B) : Prop :=
  consoleMessages w' = []
  ∧ consoleMessagesEl w' = emptied (consoleMessagesEl w)
  ∧ received_since_clear_or_run (effects w') = [].

Definition console_kept {B} (w w' : P5CodeEditor B) : Prop :=
  consoleMessages w' = consoleMessages w
  ∧ consoleMessagesEl w' = consoleMessagesEl w
  ∧ received_since_clear_or_run (effects w')
    = received_since_clear_or_run (effects w).

(** A page whose attribute and stored value say the same thing, as
    every click leaves them. *)
Definition consistent (p : Theme.Page) : Prop :=
  (Theme.attributes p !! "data-theme" = Some "light"
   ∧ Theme.localStorage p !! "theme" = Some "light")
  ∨ (Theme.attributes p !! "data-theme" = None
     ∧ Theme.localStorage p !! "theme" = Some "dark").

End Props.

(** ** Concrete pages, widgets, messages and sketches *)

Module Samples.
Import Js Editor.

Definition light_page : Theme.Page :=
  {| Theme.attributes := {["data-theme" := "light"]};
     Theme.localStorage := {["theme" := "light"]};
     Theme.textContent := Theme.sun |}.

(** A first visit: no attribute, nothing stored. *)
Definition first_visit : Theme.Page :=
  {| Theme.attributes := ∅;
     Theme.localStorage := ∅;
     Theme.textContent := Theme.moon |}.

(** The attribute says [light] while [dark] is stored. *)
Definition mixed_page : Theme.Page :=
  {| Theme.attributes := {["data-theme" := "light"]};
     Theme.localStorage := {["theme" := "dark"]};
     Theme.textContent := Theme.moon |}.

(** A widget with the default options, over the plain buffer. *)
Definition widget : P5CodeEditor string := created default_options.

Definition silent_options : Options :=
  {| theme := "tomorrow-night-eighties";
     fontSize := 14;
     lineNumbers := true;
     autoRun := true;
     showConsole := false;
     previewWidth := 400;
     previewHeight := 400;
     filename := None;
     initialCode := None |}.

(** A widget constructed with [showConsole: false]. *)
Definition silent_widget : P5CodeEditor string := created silent_options.

Definition two_examples : list Example :=
  [{| name := "circle"; code := "circle(50, 50, 20)" |};
   {| name := "square"; code := "square(10, 10, 30)" |}].

(** [{ type: 'console', method: 'log', args: ['hello'] }] *)
Definition hello : JsValue := Preview.console_message "log" [JStr "hello"].

(** [{ type: 'console', method: 'debug', args: ['x'] }] *)
Definition unknown_method : JsValue := Preview.console_message "debug" [JStr "x"].

(** [{ type: 'console', method: 'log' }] *)
Definition missing_args : JsValue :=
  JObj [("type", JStr "console"); ("method", JStr "log")].

(** [{ type: 'resize' }] *)
Definition other_type : JsValue := JObj [("type", JStr "resize")].

(** [({ toJSON() { return undefined; } })]: an object whose
    serialization returns undefined. *)
Definition toJSON_undefined : Preview.FrameArg :=
  {| Preview.arg_typeof := "object";
     Preview.arg_json := Normal None;
     Preview.arg_string := Normal "[object Object]" |}.




End Samples.

(** ** Notions for the behaviour of the toggle, the relay and the switcher *)

Module Views.
Import Js Editor Props.

(** The page is shown light: the test of the click handler. *)
Definition is_light (p : Theme.Page) : bool :=
  bool_decide (Theme.attributes p !! "data-theme" = Some "light").

(** [n] clicks of the toggle in a row. *)
Definition clicks (n : nat) (p : Theme.Page) : Theme.Page :=
  Nat.iter n Theme.click p.



(** A call of [setExamples] with a list that is not empty. *)
Definition sets_examples {B} (op : Op B) : bool :=
  match op with
  | OpSetExamples (_ :: _) => true
  | _ => false
  end.



(** A console call can be forwarded when every argument has a
    stringification. *)
Definition can_forward (c : Preview.Method * list Preview.FrameArg) : bool :=
  forallb (fun arg => is_normal (Preview.stringify arg)) (snd c).

(** The entries of the message for a call that can be forwarded. *)
Definition entries_of (arguments : list Preview.FrameArg) : list JsValue :=
  map (fun arg => match Preview.stringify arg with
                  | Normal v => v
                  | Throw _ => JUndefined
                  end) arguments.

Definition message_of (c : Preview.Method * list Preview.FrameArg) : JsValue :=
  Preview.console_message (Preview.method_name (fst c)) (entries_of (snd c)).



(** Exactly one tab of the strip is active. *)
Definition one_active (tabs : list Tab) : Prop :=
  exists i, i < length tabs
            ∧ forall j tab, tabs !! j = Some tab -> active tab = Nat.eqb j i.


End Views.

(** ** More concrete cases *)

Module Cases.
Import Js Editor.


(** [{ autoRun: false, initialCode: 'background(0)' }] over the defaults. *)
Definition without_autoRun : Options :=
  {| theme := "tomorrow-night-eighties";
     fontSize := 14;
     lineNumbers := true;
     autoRun := false;
     showConsole := true;
     previewWidth := 400;
     previewHeight := 400;
     filename := None;
     initialCode := Some "background(0)" |}.



(** [throw null]: reading [err.message] throws. *)
Definition null_thrown : Preview.Thrown :=
  {| Preview.message_text :=
       Throw "TypeError: Cannot read properties of null (reading 'message')" |}.

Definition throws_null : Preview.Behaviour :=
  {| Preview.calls := []; Preview.outcome := Some null_thrown |}.

End Cases.

Import Js Editor Props.

(** ** theme.js: the toggle *)

Lemma click_light (p : Theme.Page) :
  Theme.attributes p !! "data-theme" = Some "light" ->
  Theme.click p =
    {| Theme.attributes := delete "data-theme" (Theme.attributes p);
       Theme.localStorage := <["theme" := "dark"]> (Theme.localStorage p);
       Theme.textContent := Theme.moon |}.
Proof.
  intros Hl. unfold Theme.click. rewrite bool_decide_eq_true_2; done.
Qed.

Lemma click_not_light (p : Theme.Page) :
  Theme.attributes p !! "data-theme" ≠ Some "light" ->
  Theme.click p =
    {| Theme.attributes := <["data-theme" := "light"]> (Theme.attributes p);
       Theme.localStorage := <["theme" := "light"]> (Theme.localStorage p);
       Theme.textContent := Theme.sun |}.
Proof.
  intros Hl. unfold Theme.click. rewrite bool_decide_eq_false_2; done.
Qed.

(** Whatever the page was, a click leaves the attribute and the stored
    value in agreement. *)
Lemma click_consistent (p : Theme.Page) : consistent (Theme.click p).
Proof.
  destruct (decide (Theme.attributes p !! "data-theme" = Some "light")) as [Hl|Hl].
  - rewrite click_light by done. right. cbn.
    by rewrite lookup_delete_eq, lookup_insert_eq.
  - rewrite click_not_light by done. left. cbn.
    by rewrite !lookup_insert_eq.
Qed.

(** C7, as the code has it: from a page whose theme attribute and stored
    theme agree (attribute [light] with [light] stored, or no attribute
    with [dark] stored), two clicks of the toggle give back the attributes
    of the document and the local storage exactly as they were. *)
Theorem theme_toggle_twice (p : Theme.Page) :
  consistent p ->
  Theme.attributes (Theme.click (Theme.click p)) = Theme.attributes p
  ∧ Theme.localStorage (Theme.click (Theme.click p)) = Theme.localStorage p.
Proof.
  intros [[Ha Hs]|[Ha Hs]].
  - rewrite (click_light p) by done.
    rewrite click_not_light by (cbn; by rewrite lookup_delete_eq).
    cbn. split.
    + rewrite insert_delete_eq. by apply insert_id.
    + rewrite insert_insert_eq. by apply insert_id.
  - rewrite (click_not_light p) by (rewrite Ha; done).
    rewrite click_light by (cbn; by rewrite lookup_insert_eq).
    cbn. split.
    + rewrite delete_insert_eq. by apply delete_id.
    + rewrite insert_insert_eq. by apply insert_id.
Qed.

Lemma theme_toggle_twice_witness :
  consistent Samples.light_page
  ∧ Theme.attributes (Theme.click (Theme.click Samples.light_page))
    = Theme.attributes Samples.light_page
  ∧ Theme.localStorage (Theme.click (Theme.click Samples.light_page))
    = Theme.localStorage Samples.light_page.
Proof.
  assert (Hc : consistent Samples.light_page) by (left; split; reflexivity).
  split; [exact Hc|].
  apply (theme_toggle_twice Samples.light_page Hc).
Defined.

(** C7 as stated fails.  On a first visit (no attribute, nothing stored)
    two clicks leave [dark] stored where there was no value; and from a
    page whose attribute is [light] while [dark] is stored, two clicks
    leave [light] stored. *)
Lemma theme_toggle_twice_counterexample :
  (Theme.localStorage Samples.first_visit !! "theme" = None
   ∧ Theme.localStorage (Theme.click (Theme.click Samples.first_visit)) !! "theme"
     = Some "dark")
  ∧ (Theme.localStorage Samples.mixed_page !! "theme" = Some "dark"
     ∧ Theme.localStorage (Theme.click (Theme.click Samples.mixed_page)) !! "theme"
       = Some "light")
  ∧ Theme.localStorage (Theme.click (Theme.click Samples.first_visit)) !! "theme"
    ≠ Theme.localStorage Samples.first_visit !! "theme".
Proof.
  assert (Hfirst : Theme.localStorage (Theme.click (Theme.click Samples.first_visit))
                     !! "theme" = Some "dark").
  { rewrite (click_not_light Samples.first_visit) by (cbn; by rewrite lookup_empty).
    rewrite click_light by (cbn; by rewrite lookup_insert_eq).
    cbn. by rewrite lookup_insert_eq. }
  split; [|split]; [| |rewrite Hfirst; cbn; by rewrite lookup_empty].
  - split; [apply lookup_empty|].
    rewrite (click_not_light Samples.first_visit) by (cbn; by rewrite lookup_empty).
    rewrite click_light by (cbn; by rewrite lookup_insert_eq).
    cbn. by rewrite lookup_insert_eq.
  - split; [apply lookup_singleton_eq|].
    rewrite (click_light Samples.mixed_page) by (cbn; apply lookup_singleton_eq).
    rewrite click_not_light by (cbn; by rewrite lookup_delete_eq).
    cbn. by rewrite lookup_insert_eq.
Qed.

(** ** editor.js: what each method does to the widget *)

Section Methods.
Context {B : Type} `{EditorBuffer B}.
Implicit Types (w : P5CodeEditor B) (data : JsValue).

Lemma setCode_eq w text :
  setCode text w =
    (Normal tt, with_editor (setValue text (editor w)) (with_originalCode text w)).
Proof. reflexivity. Qed.

Lemma clearConsole_eq w :
  clearConsole w =
    (Normal tt,
     {| options := options w; editor := editor w;
        originalCode := originalCode w;
        consoleMessages := [];
        consoleMessagesEl := emptied (consoleMessagesEl w);
        examples := examples w;
        examplesTabs_display := examplesTabs_display w;
        examplesTabs := examplesTabs w;
        previewFrame_src := previewFrame_src w;
        effects := effects w ++ [EClearConsole] |}).
Proof.
  unfold clearConsole, bind, record, modify. cbn.
  destruct w as [o b c l [p|] ex d t s e]; reflexivity.
Qed.

Lemma runCode_eq w :
  runCode w =
    (Normal tt,
     {| options := options w; editor := editor w;
        originalCode := originalCode w;
        consoleMessages := [];
        consoleMessagesEl := emptied (consoleMessagesEl w);
        examples := examples w;
        examplesTabs_display := examplesTabs_display w;
        examplesTabs := examplesTabs w;
        previewFrame_src :=
          Some (Preview.generatePreviewHTML (getValue (editor w)));
        effects := effects w ++ one_run (getValue (editor w)) |}).
Proof.
  destruct w as [o b c l [p|] ex d t s e];
    unfold runCode, clearConsole, bind, record, modify, getCode, read, one_run;
    cbn; by rewrite <- !app_assoc.
Qed.

Lemma resetCode_eq w :
  resetCode w =
    if String.eqb (originalCode w) "" then (Normal tt, w)
    else runCode (with_editor (setValue (originalCode w) (editor w)) w).
Proof.
  unfold resetCode, bind, read, modify, ret.
  destruct (String.eqb (originalCode w) ""); reflexivity.
Qed.

Lemma run_cons (op : Op B) (ops : list (Op B)) w :
  run (op :: ops) w = run ops (step w op).
Proof. reflexivity. Qed.

Lemma run_snoc (ops : list (Op B)) (op : Op B) w :
  run (ops ++ [op]) w = step (run ops w) op.
Proof. unfold run. by rewrite fold_left_app. Qed.


Lemma edits_effects (changes : list (B -> B)) w :
  effects (run (map OpEdit changes) w) = effects w.
Proof.
  revert w. induction changes as [|c cs IH]; intros w; [reflexivity|].
  cbn [map]. rewrite run_cons, IH. reflexivity.
Qed.


(** C6, as the code has it: [clearConsole()] returns normally, leaves
    the message log empty whatever it held, and leaves the panel (when
    the widget has one) without any child: no placeholder is put back. *)
Theorem clearConsole_empties w :
  fst (clearConsole w) = Normal tt
  ∧ consoleMessages (snd (clearConsole w)) = []
  ∧ consoleMessagesEl (snd (clearConsole w)) = emptied (consoleMessagesEl w).
Proof. rewrite clearConsole_eq. cbn. done. Qed.


(** *** The console relay *)

Lemma addConsoleMessage_eq w (m a : JsValue) :
  addConsoleMessage m a w =
    match consoleMessagesEl w with
    | None => (Normal tt, w)
    | Some children =>
        match to_string m with
        | Throw e => (Throw e, w)
        | Normal kind =>
            match join a " " with
            | Throw e => (Throw e, w)
            | Normal line =>
                (Normal tt,
                 with_consoleMessages
                   (consoleMessages w ++ [{| method := m; args := a |}])
                   (with_consoleMessagesEl
                      (Some (children ++
                               [{| className := "console-message " +:+ kind;
                                   textContent := line |}])) w))
            end
        end
    end.
Proof.
  unfold addConsoleMessage, bind, read, eval, modify.
  destruct (consoleMessagesEl w) as [children|]; [|reflexivity].
  destruct (to_string m); [|reflexivity].
  destruct (join a " "); reflexivity.
Qed.

Lemma onMessage_eq w data :
  onMessage data w =
    let w1 := with_effects (effects w ++ [EMessage data]) w in
    if is_console data
    then addConsoleMessage (field data "method") (field data "args") w1
    else (Normal tt, w1).
Proof.
  unfold onMessage, is_console, field, bind, record, modify, eval, ret. cbn zeta.
  destruct (truthy data) eqn:Ht; [|reflexivity].
  destruct data as [| |b|z|s|items|props]; try discriminate Ht; cbn;
    try reflexivity.
  destruct (strict_eq_str (default JUndefined (assoc "type" props)) "console");
    reflexivity.
Qed.

(** What one received message does to the log, the panel and the
    history. *)
Lemma onMessage_console w data :
  let w' := step w (OpMessage data) in
  effects w' = effects w ++ [EMessage data]
  ∧ (consoleMessagesEl w = None ->
     consoleMessagesEl w' = None ∧ consoleMessages w' = consoleMessages w)
  ∧ (is_Some (consoleMessagesEl w) ->
     is_Some (consoleMessagesEl w')
     ∧ consoleMessages w' = consoleMessages w ++ option_list (accepted data)).
Proof.
  unfold step, perform, accepted. rewrite onMessage_eq. cbn zeta.
  destruct (is_console data); cbn [andb].
  2:{ cbn. split; [done|]. split; [done|]. intros Hp. split; [done|].
      by rewrite app_nil_r. }
  rewrite addConsoleMessage_eq. cbn [consoleMessagesEl with_effects].
  destruct (consoleMessagesEl w) as [children|] eqn:Hpanel.
  2:{ cbn. rewrite Hpanel. split; [done|]. split; [done|].
      intros [? Hp]. discriminate Hp. }
  destruct (to_string (field data "method")) as [kind|e]; cbn [is_normal andb].
  2:{ cbn. rewrite Hpanel. split; [done|]. split; [done|]. intros _.
      split; [by eexists|]. by rewrite app_nil_r. }
  destruct (join (field data "args") " ") as [line|e]; cbn [is_normal].
  2:{ cbn. rewrite Hpanel. split; [done|]. split; [done|]. intros _.
      split; [by eexists|]. by rewrite app_nil_r. }
  cbn. split; [done|]. split; [done|]. intros _. split; [by eexists|done].
Qed.

Lemma loadExample_eq w (index : nat) :
  loadExample index w =
    match examples w with
    | None => (Throw "TypeError: Cannot read properties of undefined", w)
    | Some list =>
        match list !! index with
        | None => (Normal tt, w)
        | Some example =>
            runCode
              (with_editor (setValue (code example) (editor w))
                 (with_originalCode (code example)
                    (with_tabs
                       (imap (fun i tab =>
                                {| label := label tab; active := Nat.eqb i index |})
                             (examplesTabs w)) w)))
        end
    end.
Proof.
  unfold loadExample, bind, read, eval, modify, ret.
  destruct (examples w) as [list|]; [|reflexivity].
  destruct (list !! index); reflexivity.
Qed.

Lemma setExamples_eq w (list : list Example) :
  setExamples list w =
    if Nat.eqb (length list) 0 then (Normal tt, with_display "none" w)
    else loadExample 0
           (with_tabs
              (imap (fun index example =>
                       {| label := name example; active := Nat.eqb index 0 |})
                    list)
              (with_examples (Some list) (with_tabs [] (with_display "flex" w)))).
Proof.
  unfold setExamples, bind, modify.
  destruct (Nat.eqb (length list) 0); reflexivity.
Qed.

Lemma received_app (history : list Effect) (e : Effect) :
  received_since_clear_or_run (history ++ [e])
  = since_step (received_since_clear_or_run history) e.
Proof. unfold received_since_clear_or_run. by rewrite fold_left_app. Qed.

Lemma received_one_run (history : list Effect) (text : string) :
  received_since_clear_or_run (history ++ one_run text) = [].
Proof. unfold received_since_clear_or_run. by rewrite fold_left_app. Qed.

Lemma runCode_cleared w w1 :
  consoleMessagesEl w1 = consoleMessagesEl w ->
  console_cleared w (snd (runCode w1)).
Proof.
  intros Hp. rewrite runCode_eq. unfold console_cleared.
  cbn [snd consoleMessages consoleMessagesEl effects].
  rewrite Hp, received_one_run. done.
Qed.

(** Every operation other than the arrival of a message either leaves
    the console alone or clears it. *)
Lemma step_console w (op : Op B) :
  console_kept w (step w op)
  ∨ console_cleared w (step w op)
  ∨ exists data, op = OpMessage data.
Proof.
  destruct op as [text|change| | | | |list|index|data]; unfold step, perform.
  - left. rewrite setCode_eq. by cbn.
  - left. by cbn.
  - right; left. by apply runCode_cleared.
  - rewrite resetCode_eq. destruct (String.eqb (originalCode w) "").
    + left. by cbn.
    + right; left. by apply runCode_cleared.
  - left. unfold copyCode, bind, getCode, read, record, modify, console_kept.
    cbn [snd fst consoleMessages consoleMessagesEl effects with_effects].
    by rewrite received_app.
  - right; left. rewrite clearConsole_eq. unfold console_cleared.
    cbn [snd consoleMessages consoleMessagesEl effects].
    by rewrite received_app.
  - rewrite setExamples_eq. destruct (Nat.eqb (length list) 0) eqn:Hlen.
    + left. by cbn.
    + rewrite loadExample_eq. cbn [examples with_tabs with_examples].
      destruct list as [|example rest]; [discriminate Hlen|]. cbn [lookup list_lookup].
      right; left. by apply runCode_cleared.
  - rewrite loadExample_eq. destruct (examples w) as [list|].
    + destruct (list !! index).
      * right; left. by apply runCode_cleared.
      * left. by cbn.
    + left. by cbn.
  - right; right. by exists data.
Qed.

(** *** The console over the life of a widget *)

Lemma constructed_console (o : Options) (w0 : P5CodeEditor B) :
  construct true o = Some w0 ->
  consoleMessages w0 = []
  ∧ received_since_clear_or_run (effects w0) = []
  ∧ consoleMessagesEl w0
    = (if showConsole o then Some (if autoRun o
                                      && match initialCode o with
                                         | Some text => negb (String.eqb text "")
                                         | None => false
                                         end
                                   then [] else [placeholder])
       else None).
Proof.
  unfold construct, init. intros [= <-].
  destruct (initialCode o) as [text|], (autoRun o); cbn [andb];
    try (cbn; destruct (showConsole o); done).
  destruct (String.eqb text ""); cbn [negb];
    [cbn; destruct (showConsole o); done|].
  unfold bind. rewrite setCode_eq, runCode_eq.
  cbn [snd consoleMessages consoleMessagesEl effects with_editor
       with_originalCode created].
  rewrite received_one_run. destruct (showConsole o); done.
Qed.


Lemma run_with_panel (ops : list (Op B)) w :
  is_Some (consoleMessagesEl w) ->
  consoleMessages w = omap accepted (received_since_clear_or_run (effects w)) ->
  is_Some (consoleMessagesEl (run ops w))
  ∧ consoleMessages (run ops w)
    = omap accepted (received_since_clear_or_run (effects (run ops w))).
Proof.
  intros Hp Hl. induction ops as [|op ops IH] using rev_ind; [done|].
  rewrite run_snoc. destruct IH as [IHp IHl].
  destruct (step_console (run ops w) op) as [(Hm & Hq & Hr)|[(Hm & Hq & Hr)|[data ->]]].
  - by rewrite Hm, Hq, Hr.
  - rewrite Hm, Hq, Hr. destruct IHp as [panel ->]. split; [by eexists|done].
  - destruct (onMessage_console (run ops w) data) as (He & _ & Hsome).
    destruct (Hsome IHp) as [Hq Hm]. split; [done|].
    rewrite Hm, He, received_app, IHl. cbn [since_step].
    rewrite omap_app. reflexivity.
Qed.


(** C4, as the code has it: every call of [runCode()] empties the
    message log and clears the console before it gives the frame the new
    document; and in a widget that has a console panel ([showConsole]
    true) the log holds, after any operations, exactly the entries of the
    messages accepted since the most recent call of [clearConsole()] or
    [runCode()], in arrival order. *)
Theorem log_since_clear_or_run (o : Options) (w0 : P5CodeEditor B)
    (ops : list (Op B)) :
  showConsole o = true ->
  construct true o = Some w0 ->
  (forall w, fst (runCode w) = Normal tt
             ∧ consoleMessages (snd (runCode w)) = []
             ∧ effects (snd (runCode w))
               = effects w ++ [ERunCode; EClearConsole;
                               ELoadPreview
                                 (Preview.generatePreviewHTML (getValue (editor w)))])
  ∧ consoleMessages (run ops w0)
    = omap accepted (received_since_clear_or_run (effects (run ops w0))).
Proof.
  intros Hshow Hnew. split.
  - intros w. rewrite runCode_eq. done.
  - destruct (constructed_console o w0 Hnew) as (Hl & Hr & Hp).
    rewrite Hshow in Hp.
    apply run_with_panel.
    + rewrite Hp. by eexists.
    + by rewrite Hl, Hr.
Qed.

(** C1, as the code has it: a message whose data is falsy or whose
    [type] is not the string [console] is ignored, and so is every
    message when the widget has no console panel: the listener returns
    normally and the log and the panel are as before. *)
Theorem other_message_ignored w data :
  is_console data = false ∨ consoleMessagesEl w = None ->
  fst (onMessage data w) = Normal tt
  ∧ consoleMessages (snd (onMessage data w)) = consoleMessages w
  ∧ consoleMessagesEl (snd (onMessage data w)) = consoleMessagesEl w.
Proof.
  intros Hcase. rewrite onMessage_eq. cbn zeta.
  destruct (is_console data); [|done].
  destruct Hcase as [Hc|Hp]; [discriminate Hc|].
  rewrite addConsoleMessage_eq. cbn [consoleMessagesEl with_effects].
  rewrite Hp. cbn. by rewrite Hp.
Qed.

(** *** The example switcher *)

Lemma relabel_labels (index : nat) (tabs : list Tab) :
  label <$> imap (fun i tab => {| label := label tab; active := Nat.eqb i index |}) tabs
  = label <$> tabs.
Proof.
  rewrite fmap_imap, <- (imap_const label). by apply imap_ext.
Qed.

Lemma new_tabs_labels (list : list Example) :
  label <$> imap (fun index example =>
                    {| label := name example; active := Nat.eqb index 0 |}) list
  = name <$> list.
Proof.
  rewrite fmap_imap, <- (imap_const name). by apply imap_ext.
Qed.

Lemma step_tabs_match w (op : Op B) :
  tabs_match w -> tabs_match (step w op).
Proof.
  intros Hw. unfold tabs_match in *.
  destruct op as [text|change| | | | |list|index|data]; unfold step, perform.
  - by rewrite setCode_eq.
  - done.
  - by rewrite runCode_eq.
  - rewrite resetCode_eq. destruct (String.eqb (originalCode w) ""); [done|].
    by rewrite runCode_eq.
  - done.
  - by rewrite clearConsole_eq.
  - rewrite setExamples_eq. destruct (Nat.eqb (length list) 0) eqn:Hlen; [done|].
    rewrite loadExample_eq. cbn [examples with_tabs with_examples].
    destruct list as [|example rest]; [discriminate Hlen|].
    cbn [lookup list_lookup]. rewrite runCode_eq.
    cbn [snd examples examplesTabs with_editor with_originalCode with_tabs].
    by rewrite relabel_labels, new_tabs_labels.
  - rewrite loadExample_eq. destruct (examples w) as [list|] eqn:Hex.
    + destruct (list !! index); [|cbn [snd]; by rewrite Hex].
      rewrite runCode_eq.
      cbn [snd examples examplesTabs with_editor with_originalCode with_tabs].
      by rewrite Hex, relabel_labels.
    + cbn [snd]. by rewrite Hex.
  - rewrite onMessage_eq. cbn zeta. destruct (is_console data); [|done].
    rewrite addConsoleMessage_eq. cbn [consoleMessagesEl with_effects].
    destruct (consoleMessagesEl w); [|done].
    destruct (to_string _); [|done]. destruct (join _ _); done.
Qed.

Lemma run_tabs_match (ops : list (Op B)) w :
  tabs_match w -> tabs_match (run ops w).
Proof.
  intros Hw. induction ops as [|op ops IH] using rev_ind; [done|].
  rewrite run_snoc. by apply step_tabs_match.
Qed.

Lemma constructed_tabs_match (o : Options) (w0 : P5CodeEditor B) :
  construct true o = Some w0 -> tabs_match w0.
Proof.
  unfold construct, init, tabs_match. intros [= <-].
  destruct (initialCode o) as [text|]; [|done].
  destruct (autoRun o && negb (String.eqb text "")); [|done].
  unfold bind. by rewrite setCode_eq, runCode_eq.
Qed.


(** *** The preview document and the console *)

Lemma deliver_cons (message : JsValue) (messages : list JsValue) w :
  deliver (message :: messages) w = deliver messages (step w (OpMessage message)).
Proof. reflexivity. Qed.


Lemma deliver_no_panel (messages : list JsValue) w :
  consoleMessagesEl w = None ->
  consoleMessagesEl (deliver messages w) = None
  ∧ consoleMessages (deliver messages w) = consoleMessages w.
Proof.
  revert w. induction messages as [|message rest IH]; intros w Hp; [done|].
  rewrite deliver_cons.
  destruct (onMessage_console w message) as (_ & Hnone & _).
  destruct (Hnone Hp) as [Hq Hm].
  destruct (IH _ Hq) as [IHq IHm]. by rewrite IHq, IHm, Hm.
Qed.

End Methods.

Section Frame.
Import Preview.

Lemma posted_run_calls (cs : list (Method * list FrameArg)) (f : Frame) :
  posted (run_calls cs f) = posted f ++ messages_of cs.
Proof.
  revert f. induction cs as [|c cs IH]; intros f.
  - cbn. by rewrite app_nil_r.
  - cbn [run_calls fold_left]. fold (run_calls cs (console (fst c) (snd c) f)).
    rewrite IH. cbn [posted console messages_of flat_map].
    by rewrite <- app_assoc.
Qed.

(** *** The stringification of console arguments *)

Lemma stringify_json (arg : FrameArg) (s : string) :
  arg_typeof arg = "object" -> arg_json arg = Normal (Some s) ->
  stringify arg = Normal (JStr s).
Proof. intros Ht Hj. unfold stringify. by rewrite Ht, Hj. Qed.

Lemma stringify_fallback (arg : FrameArg) (e : string) :
  arg_typeof arg = "object" -> arg_json arg = Throw e ->
  stringify arg = cmap JStr (arg_string arg).
Proof. intros Ht Hj. unfold stringify. by rewrite Ht, Hj. Qed.

Lemma stringify_other (arg : FrameArg) :
  arg_typeof arg ≠ "object" ->
  stringify arg = cmap JStr (arg_string arg).
Proof.
  intros Ht. unfold stringify.
  by destruct (String.eqb_spec (arg_typeof arg) "object").
Qed.





End Frame.

Section Reports.
Context {B : Type} `{EditorBuffer B}.
Import Preview.


End Reports.

(** ** The properties at concrete widgets *)




(** C6 as stated fails: the panel of a new widget holds the placeholder,
    and after [clearConsole()] it holds nothing, not a placeholder. *)
Lemma clearConsole_empties_counterexample :
  consoleMessagesEl Samples.widget = Some [placeholder]
  ∧ consoleMessagesEl (snd (clearConsole Samples.widget)) = Some []
  ∧ consoleMessagesEl (snd (clearConsole Samples.widget)) ≠ Some [placeholder].
Proof. repeat split. discriminate. Qed.

Lemma other_message_ignored_witness :
  is_console Samples.other_type = false
  ∧ fst (onMessage Samples.other_type Samples.widget) = Normal tt
  ∧ consoleMessages (snd (onMessage Samples.other_type Samples.widget)) = []
  ∧ consoleMessagesEl (snd (onMessage Samples.other_type Samples.widget))
    = Some [placeholder].
Proof.
  split; [reflexivity|].
  apply (other_message_ignored Samples.widget Samples.other_type).
  left. reflexivity.
Defined.

(** C1 as stated fails.  A message of type [console] with a method outside
    the four ([debug]) is appended to the log and to the panel; one without
    [args] makes the listener throw. *)
Lemma other_message_ignored_counterexample :
  (console_forward_shape Samples.unknown_method = false
   ∧ consoleMessages (snd (onMessage Samples.unknown_method Samples.widget))
     = [{| method := JStr "debug"; args := JArr [JStr "x"] |}]
   ∧ consoleMessagesEl (snd (onMessage Samples.unknown_method Samples.widget))
     = Some [placeholder;
             {| className := "console-message debug"; textContent := "x" |}])
  ∧ (console_forward_shape Samples.missing_args = false
     ∧ fst (onMessage Samples.missing_args Samples.widget)
       = Throw "TypeError: Cannot read properties of undefined (reading 'join')")
  ∧ consoleMessages (snd (onMessage Samples.unknown_method Samples.widget))
    ≠ consoleMessages Samples.widget.
Proof. repeat split. discriminate. Qed.

Lemma log_since_clear_or_run_witness :
  showConsole default_options = true
  ∧ construct true default_options = Some Samples.widget
  ∧ consoleMessages
      (run [OpMessage Samples.hello; OpRunCode; OpMessage Samples.other_type;
            OpMessage Samples.hello] Samples.widget)
    = [{| method := JStr "log"; args := JArr [JStr "hello"] |}].
Proof.
  split; [reflexivity|]. split; [reflexivity|].
  rewrite (proj2 (log_since_clear_or_run default_options Samples.widget
                    [OpMessage Samples.hello; OpRunCode;
                     OpMessage Samples.other_type; OpMessage Samples.hello]
                    eq_refl eq_refl)).
  reflexivity.
Defined.

(** C4 as stated fails in a widget without a console panel: a console
    message has arrived since the widget was made, and the log is empty. *)
Lemma log_since_clear_or_run_counterexample :
  construct true Samples.silent_options = Some Samples.silent_widget
  ∧ received_since_clear_or_run
      (effects (run [OpMessage Samples.hello] Samples.silent_widget))
    = [Samples.hello]
  ∧ console_forward_shape Samples.hello = true
  ∧ consoleMessages (run [OpMessage Samples.hello] Samples.silent_widget) = []
  ∧ consoleMessages (run [OpMessage Samples.hello] Samples.silent_widget)
    ≠ omap accepted
        (received_since_clear_or_run
           (effects (run [OpMessage Samples.hello] Samples.silent_widget))).
Proof. repeat split. discriminate. Qed.





(** C5: the forwarded entry of an object-typed argument whose JSON
    serialization returns undefined (an object with a [toJSON] method
    returning undefined) is undefined, not a string; the message posted for
    [console.log] of it does not have the shape of the interface. *)
Theorem toJSON_undefined_forwarded :
  Preview.stringify Samples.toJSON_undefined = Normal JUndefined
  ∧ Preview.sendToParent "log" [Samples.toJSON_undefined]
    = Some (Preview.console_message "log" [JUndefined])
  ∧ console_forward_shape (Preview.console_message "log" [JUndefined]) = false.
Proof. repeat split. Qed.

(** ** theme.js: sequences of clicks *)

Import Views.

Lemma is_light_true (p : Theme.Page) :
  is_light p = true <-> Theme.attributes p !! "data-theme" = Some "light".
Proof. unfold is_light. apply bool_decide_eq_true. Qed.

Lemma is_light_false (p : Theme.Page) :
  is_light p = false <-> Theme.attributes p !! "data-theme" ≠ Some "light".
Proof. unfold is_light. apply bool_decide_eq_false. Qed.

Lemma clicks_S (n : nat) (p : Theme.Page) :
  clicks (S n) p = Theme.click (clicks n p).
Proof. reflexivity. Qed.

(** After a click the attribute, the stored value and the icon all say
    the same theme, the opposite of the one before. *)
Lemma click_settled (p : Theme.Page) :
  is_light (Theme.click p) = negb (is_light p)
  ∧ Theme.attributes (Theme.click p) !! "data-theme"
    = (if is_light p then None else Some "light")
  ∧ Theme.localStorage (Theme.click p) !! "theme"
    = Some (if is_light p then "dark" else "light")
  ∧ Theme.textContent (Theme.click p)
    = (if is_light p then Theme.moon else Theme.sun).
Proof.
  destruct (is_light p) eqn:Hl.
  - apply is_light_true in Hl. rewrite (click_light p Hl).
    unfold is_light. cbn. rewrite lookup_delete_eq, lookup_insert_eq. done.
  - apply is_light_false in Hl. rewrite (click_not_light p Hl).
    unfold is_light. cbn. rewrite !lookup_insert_eq. done.
Qed.

Lemma clicks_is_light (n : nat) (p : Theme.Page) :
  is_light (clicks n p) = xorb (is_light p) (Nat.odd n).
Proof.
  induction n as [|n IH].
  - cbn. by rewrite xorb_false_r.
  - rewrite clicks_S. destruct (click_settled (clicks n p)) as [-> _].
    rewrite IH, Nat.odd_succ, <- Nat.negb_odd.
    by destruct (is_light p), (Nat.odd n).
Qed.

(** X1: each click flips the theme: after [n + 1] clicks the page is light
    exactly when it was light before and the number of clicks is even, or
    dark before and the number odd; the stored value and the icon say the
    same. *)
Theorem clicks_parity (n : nat) (p : Theme.Page) :
  let q := clicks (S n) p in
  is_light q = xorb (is_light p) (Nat.odd (S n))
  ∧ Theme.attributes q !! "data-theme" = (if is_light q then Some "light" else None)
  ∧ Theme.localStorage q !! "theme" = Some (if is_light q then "light" else "dark")
  ∧ Theme.textContent q = (if is_light q then Theme.sun else Theme.moon).
Proof.
  intros q. split; [apply clicks_is_light|].
  unfold q. rewrite clicks_S.
  destruct (click_settled (clicks n p)) as (Hl & Ha & Hs & Hi).
  rewrite Hl, Ha, Hs, Hi. by destruct (is_light (clicks n p)).
Qed.

(** X2: a click reads and writes one attribute and one key of the storage:
    after any number of clicks every other attribute of the document and
    every other key of the local storage is as before. *)
Theorem clicks_leave_other_keys (n : nat) (p : Theme.Page) (a k : string) :
  a ≠ "data-theme" -> k ≠ "theme" ->
  Theme.attributes (clicks n p) !! a = Theme.attributes p !! a
  ∧ Theme.localStorage (clicks n p) !! k = Theme.localStorage p !! k.
Proof.
  intros Ha Hk. induction n as [|n [IHa IHk]]; [done|].
  rewrite clicks_S, <- IHa, <- IHk.
  destruct (decide (Theme.attributes (clicks n p) !! "data-theme" = Some "light"))
    as [Hl|Hl].
  - rewrite (click_light _ Hl). cbn.
    by rewrite lookup_delete_ne, lookup_insert_ne.
  - rewrite (click_not_light _ Hl). cbn.
    by rewrite !lookup_insert_ne.
Qed.

(** X3: from the first click on the toggle is an involution, icon included:
    three clicks leave the page exactly as one click does. *)
Theorem three_clicks_one_click (p : Theme.Page) :
  Theme.click (Theme.click (Theme.click p)) = Theme.click p.
Proof.
  destruct (decide (Theme.attributes p !! "data-theme" = Some "light")) as [Hl|Hl].
  - rewrite (click_light p Hl).
    match goal with
    | |- Theme.click (Theme.click ?q) = _ =>
        rewrite (click_not_light q) by (cbn; by rewrite lookup_delete_eq)
    end.
    rewrite click_light by (cbn; by rewrite lookup_insert_eq).
    cbn. by rewrite delete_insert_eq, delete_delete_eq, !insert_insert_eq.
  - rewrite (click_not_light p Hl).
    match goal with
    | |- Theme.click (Theme.click ?q) = _ =>
        rewrite (click_light q) by (cbn; by rewrite lookup_insert_eq)
    end.
    rewrite click_not_light by (cbn; by rewrite lookup_delete_eq).
    cbn. by rewrite insert_delete_eq, !insert_insert_eq.
Qed.

(** X4: once the page has loaded with a toggle, a light page always shows the
    sun, whatever the number of clicks; the load handler itself leaves the
    attributes and the storage alone. *)
Theorem light_page_shows_sun (n : nat) (p : Theme.Page) :
  is_light (clicks n (Theme.onDOMContentLoaded true p)) = true ->
  Theme.textContent (clicks n (Theme.onDOMContentLoaded true p)) = Theme.sun
  ∧ Theme.attributes (Theme.onDOMContentLoaded true p) = Theme.attributes p
  ∧ Theme.localStorage (Theme.onDOMContentLoaded true p) = Theme.localStorage p.
Proof.
  intros Hl. split.
  - destruct n as [|n].
    + cbn in *. unfold Theme.onDOMContentLoaded in *. cbn [negb] in *.
      destruct (bool_decide (Theme.attributes p !! "data-theme" = Some "light"))
        eqn:Hd; [done|].
      apply is_light_true in Hl. apply bool_decide_eq_false in Hd. done.
    + rewrite clicks_S in *.
      destruct (click_settled (clicks n (Theme.onDOMContentLoaded true p)))
        as (Hq & _ & _ & Hi).
      rewrite Hi. rewrite Hq in Hl.
      by destruct (is_light (clicks n (Theme.onDOMContentLoaded true p))).
  - unfold Theme.onDOMContentLoaded. cbn [negb].
    by destruct (bool_decide _).
Qed.

(** ** editor.js: every operation, field by field *)

(** Case analysis on one operation, each method replaced by what it
    computes. *)
Ltac by_op w op :=
  destruct op as [?text|?change| | | | |?list|?index|?data]; unfold step, perform;
  [ rewrite setCode_eq
  | idtac
  | rewrite runCode_eq
  | rewrite resetCode_eq; destruct (String.eqb (originalCode w) "") eqn:?Horig;
    [|rewrite runCode_eq]
  | unfold copyCode, bind, getCode, read, record, modify
  | rewrite clearConsole_eq
  | rewrite setExamples_eq; destruct list as [|?example ?rest];
    cbn [length Nat.eqb];
    [|rewrite loadExample_eq;
      cbn [examples with_tabs with_examples lookup list_lookup];
      rewrite runCode_eq]
  | rewrite loadExample_eq; destruct (examples w) as [?list|] eqn:?Hex;
    [destruct (list !! index) as [?example|] eqn:?Hi; [rewrite runCode_eq|]|]
  | rewrite onMessage_eq; cbn zeta; destruct (is_console data) eqn:?Hcons;
    [rewrite addConsoleMessage_eq; cbn [consoleMessagesEl with_effects];
     destruct (consoleMessagesEl w) as [?children|] eqn:?Hpanel;
     [destruct (to_string (field data "method")) as [?kind|?e] eqn:?Hkind;
      [destruct (join (field data "args") " ") as [?line|?e] eqn:?Hline|]|]|] ].

Ltac fields :=
  cbn [fst snd options editor originalCode consoleMessages consoleMessagesEl
       examples examplesTabs_display examplesTabs previewFrame_src effects
       with_editor with_originalCode with_consoleMessages
       with_consoleMessagesEl with_examples with_display with_tabs with_src
       with_effects].

Section Fields.
Context {B : Type} `{EditorBuffer B}.
Implicit Types (w : P5CodeEditor B) (data : JsValue) (op : Op B).

Lemma step_options w op : options (step w op) = options w.
Proof. by_op w op; fields; reflexivity. Qed.

Lemma step_examples w op :
  examples (step w op)
  = match op with
    | OpSetExamples (example :: rest) => Some (example :: rest)
    | _ => examples w
    end.
Proof. by_op w op; fields; done. Qed.

Lemma constructed_fields (o : Options) (w0 : P5CodeEditor B) :
  construct true o = Some w0 ->
  options w0 = o ∧ examples w0 = None ∧ examplesTabs w0 = []
  ∧ examplesTabs_display w0 = "none".
Proof.
  unfold construct, init. intros [= <-].
  destruct (initialCode o) as [text|]; [|done].
  destruct (autoRun o && negb (String.eqb text "")); [|done].
  unfold bind. by rewrite setCode_eq, runCode_eq.
Qed.

(** X5: the options given to the constructor are never changed. *)
Theorem options_immutable (o : Options) (w0 : P5CodeEditor B) (ops : list (Op B)) :
  construct true o = Some w0 ->
  options (run ops w0) = o.
Proof.
  intros Hnew. induction ops as [|op ops IH] using rev_ind.
  - destruct (constructed_fields o w0 Hnew) as [Ho _]. exact Ho.
  - by rewrite run_snoc, step_options.
Qed.

(** X6: a [message] event, whatever its data and whether or not the listener
    throws on it, changes nothing but the console: the code in the editor,
    the remembered original, the examples and their tabs, the preview frame
    and the options are as before. *)
Theorem message_touches_console_only w data :
  let w' := snd (onMessage data w) in
  editor w' = editor w
  ∧ originalCode w' = originalCode w
  ∧ examples w' = examples w
  ∧ examplesTabs w' = examplesTabs w
  ∧ examplesTabs_display w' = examplesTabs_display w
  ∧ previewFrame_src w' = previewFrame_src w
  ∧ options w' = options w.
Proof.
  intros w'. subst w'. rewrite onMessage_eq. cbn zeta.
  destruct (is_console data); [|done].
  rewrite addConsoleMessage_eq. cbn [consoleMessagesEl with_effects].
  destruct (consoleMessagesEl w); [|done].
  destruct (to_string _); [|done]. destruct (join _ _); done.
Qed.

(** *** The panel shows the log *)




(** *** The example list *)

Lemma run_examples_none (ops : list (Op B)) w :
  examples w = None ->
  examples (run ops w) = None <-> existsb sets_examples ops = false.
Proof.
  intros Hw. induction ops as [|op ops IH] using rev_ind; [done|].
  rewrite run_snoc, step_examples, existsb_app. cbn [existsb].
  rewrite orb_false_r, orb_false_iff, <- IH.
  destruct op as [| | | | | |[|example rest]| |]; cbn; try tauto.
  split; [discriminate|]. intros [_ Hf]. discriminate Hf.
Qed.

(** X8: [loadExample] before any list was given throws a TypeError (reading
    an index of undefined) and changes nothing; [setExamples] with an
    empty list does not count as giving one.  Once a list that is not empty
    was given, [loadExample] never throws, and an index outside the list is
    ignored. *)
Theorem loadExample_without_list (o : Options) (w0 : P5CodeEditor B)
    (ops : list (Op B)) (i : nat) :
  construct true o = Some w0 ->
  let w := run ops w0 in
  (existsb sets_examples ops = false ->
   loadExample i w = (Throw "TypeError: Cannot read properties of undefined", w))
  ∧ (existsb sets_examples ops = true ->
     fst (loadExample i w) = Normal tt
     ∧ (forall l, examples w = Some l -> l !! i = None ->
                  snd (loadExample i w) = w)).
Proof.
  intros Hnew w.
  destruct (constructed_fields o w0 Hnew) as (_ & Hex0 & _).
  pose proof (run_examples_none ops w0 Hex0) as Hnone. fold w in Hnone.
  clearbody w. rewrite loadExample_eq. split.
  - intros Hops. apply Hnone in Hops. by rewrite Hops.
  - intros Hops. destruct (examples w) as [l|] eqn:Hex.
    + destruct (l !! i) eqn:Hi.
      * rewrite runCode_eq. split; [done|]. intros l' [= <-] Hi'. congruence.
      * done.
    + destruct Hnone as [Hnone _]. rewrite Hnone in Hops by done. discriminate.
Qed.

(** *** Construction *)


(** X10: the initial code is used only together with [autoRun]: with
    [autoRun] off, or with no initial code or an empty one, the constructor
    leaves the editor as CodeMirror made it, remembers no original and
    loads nothing in the preview frame. *)
Theorem construct_ignores_initialCode (o : Options) (w0 : P5CodeEditor B) :
  construct true o = Some w0 ->
  autoRun o = false ∨ initialCode o = None ∨ initialCode o = Some "" ->
  w0 = created o
  ∧ editor w0 = fromTextArea
  ∧ originalCode w0 = ""
  ∧ previewFrame_src w0 = None
  ∧ effects w0 = [].
Proof.
  unfold construct, init. intros [= <-] Hcase.
  assert (Hidle : snd (match initialCode o with
                       | Some text =>
                           if autoRun o && negb (String.eqb text "")
                           then bind (setCode text) (fun _ => runCode)
                           else ret tt
                       | None => ret tt
                       end (created o)) = created o).
  { destruct Hcase as [Ha|[Hc|Hc]].
    - rewrite Ha. by destruct (initialCode o).
    - by rewrite Hc.
    - rewrite Hc. cbn. by rewrite andb_false_r. }
  rewrite Hidle. done.
Qed.

(** *** setExamples *)





(** *** The active tab *)

Lemma relabel_one_active (index : nat) (tabs : list Tab) :
  index < length tabs ->
  one_active (imap (fun i tab => {| label := label tab; active := Nat.eqb i index |})
                   tabs).
Proof.
  intros Hlt. exists index. split; [by rewrite length_imap|].
  intros j tab Hj. rewrite list_lookup_imap in Hj.
  destruct (tabs !! j); [|discriminate Hj]. by injection Hj as <-.
Qed.

Lemma step_one_active w op :
  tabs_match w ->
  examplesTabs w = [] ∨ one_active (examplesTabs w) ->
  examplesTabs (step w op) = [] ∨ one_active (examplesTabs (step w op)).
Proof.
  unfold tabs_match. intros Hmatch Hw.
  by_op w op; fields; try exact Hw.
  - right. apply relabel_one_active. rewrite length_imap. cbn. lia.
  - right. apply relabel_one_active.
    apply (f_equal length) in Hmatch. rewrite !length_fmap in Hmatch.
    rewrite Hmatch. by apply lookup_lt_Some with example.
Qed.

(** X14: in a widget made by the constructor, after any operations, the tab
    strip is empty or has exactly one active tab. *)
Theorem one_tab_active (o : Options) (w0 : P5CodeEditor B) (ops : list (Op B)) :
  construct true o = Some w0 ->
  examplesTabs (run ops w0) = [] ∨ one_active (examplesTabs (run ops w0)).
Proof.
  intros Hnew. induction ops as [|op ops IH] using rev_ind.
  - left. by destruct (constructed_fields o w0 Hnew) as (_ & _ & Ht & _).
  - rewrite run_snoc. apply step_one_active; [|exact IH].
    apply run_tabs_match. by apply (constructed_tabs_match o).
Qed.

(** *** The preview frame *)

(** X15: the preview frame changes only when a run happens, and then it holds
    the document generated from the buffer as it is after the operation,
    with an empty log.  Setting or editing the code, copying it, clearing
    the console and incoming messages leave the frame as it was. *)
Theorem frame_changes_on_run_only w op :
  (previewFrame_src (step w op) = previewFrame_src w
   ∨ (previewFrame_src (step w op)
      = Some (Preview.generatePreviewHTML (getValue (editor (step w op))))
      ∧ consoleMessages (step w op) = []))
  ∧ (match op with
     | OpSetCode _ | OpEdit _ | OpCopyCode | OpClearConsole | OpMessage _ =>
         previewFrame_src (step w op) = previewFrame_src w
     | _ => True
     end).
Proof.
  by_op w op; fields; split; try done; try (by left); try (by right).
Qed.

End Fields.

(** ** The preview document: what the shim forwards *)

Section Shim.
Import Preview.

Lemma sequence_stringify (arguments : list FrameArg) :
  sequence (map stringify arguments)
  = if forallb (fun arg => is_normal (stringify arg)) arguments
    then Normal (entries_of arguments)
    else match sequence (map stringify arguments) with
         | Normal _ => Throw ""
         | Throw e => Throw e
         end.
Proof.
  induction arguments as [|arg rest IH]; [reflexivity|].
  cbn [map sequence forallb entries_of].
  destruct (stringify arg) as [v|e]; cbn [is_normal andb]; [|reflexivity].
  rewrite IH. fold (entries_of rest).
  destruct (forallb _ rest); cbn [cmap]; [reflexivity|].
  by destruct (sequence (map stringify rest)).
Qed.

Lemma sendToParent_forward (name : string) (arguments : list FrameArg) :
  sendToParent name arguments
  = if forallb (fun arg => is_normal (stringify arg)) arguments
    then Some (console_message name (entries_of arguments))
    else None.
Proof.
  unfold sendToParent. rewrite sequence_stringify.
  destruct (forallb _ arguments); [reflexivity|].
  by destruct (sequence (map stringify arguments)).
Qed.

Lemma devtools_run_calls (cs : list (Method * list FrameArg)) (f : Frame) :
  devtools (run_calls cs f) = devtools f ++ cs ∧ setup (run_calls cs f) = setup f.
Proof.
  revert f. induction cs as [|c cs IH]; intros f.
  - cbn. by rewrite app_nil_r.
  - cbn [run_calls fold_left]. fold (run_calls cs (console (fst c) (snd c) f)).
    destruct (IH (console (fst c) (snd c) f)) as [-> ->].
    cbn [devtools console setup]. rewrite <- app_assoc. by destruct c.
Qed.

Lemma posted_forwarded (cs : list (Method * list FrameArg)) (f : Frame) :
  posted (run_calls cs f) = posted f ++ map message_of (List.filter can_forward cs).
Proof.
  rewrite posted_run_calls. f_equal.
  induction cs as [|c cs IH]; [reflexivity|].
  cbn [messages_of flat_map List.filter]. fold (messages_of cs).
  rewrite IH, sendToParent_forward. unfold can_forward at 2.
  by destruct (forallb _ (snd c)).
Qed.

(** X16: a console call of the sketch is forwarded to the parent exactly when
    every one of its arguments can be stringified (a single argument for
    which both [JSON.stringify] and [String] throw drops the whole
    message); the forwarded messages keep the order of the calls; and every
    call, forwarded or not, is passed on to the original console. *)
Theorem calls_forwarded (cs : list (Method * list FrameArg)) (f : Frame) :
  posted (run_calls cs f) = posted f ++ map message_of (List.filter can_forward cs)
  ∧ devtools (run_calls cs f) = devtools f ++ cs.
Proof.
  split; [apply posted_forwarded|apply devtools_run_calls].
Qed.




(** An uncaught error message as [window.onerror] forwards it. *)
Lemma sendToParent_string (name text : string) :
  sendToParent name [string_arg text] = Some (console_message name [JStr text]).
Proof. reflexivity. Qed.

(** X17: when reading [err.message] throws inside the [catch] block (the
    sketch threw null or undefined), no fallback [setup] is declared and
    the original [console.error] is not called: the error leaves the
    script and [window.onerror] posts one error message with the text and
    the line given by the browser, after the messages of the sketch's own
    calls. *)
Theorem failed_handler_reaches_onerror (b : Behaviour) (err : Thrown)
    (e : string) (lineno : Z) :
  outcome b = Some err -> message_text err = Throw e ->
  setup (load b lineno) = None
  ∧ devtools (load b lineno) = calls b
  ∧ posted (load b lineno)
    = map message_of (List.filter can_forward (calls b))
      ++ [console_message "error"
            [JStr ("Error: " +:+ e +:+ " (line " +:+ pretty lineno +:+ ")")]].
Proof.
  intros Hout Hm. unfold load, script. rewrite Hout, Hm.
  cbn [window_onerror posted devtools setup].
  rewrite posted_forwarded.
  destruct (devtools_run_calls (calls b) blank) as [-> ->].
  by rewrite sendToParent_string.
Qed.

End Shim.

(** ** From the frame to the console of the widget *)

Section Relay.
Context {B : Type} `{EditorBuffer B}.
Import Preview.









End Relay.

(** ** The generated document *)

Lemma append_length (a b : string) :
  String.length (a +:+ b) = String.length a + String.length b.
Proof. induction a as [|c a IH]; simpl; [reflexivity|]. by rewrite IH. Qed.

Lemma append_inj_r (s a b : string) : a +:+ s = b +:+ s -> a = b.
Proof.
  revert b. induction a as [|c a IH]; intros [|c' b] Heq.
  - reflexivity.
  - apply (f_equal String.length) in Heq.
    rewrite !append_length in Heq. simpl in Heq. lia.
  - apply (f_equal String.length) in Heq.
    rewrite !append_length in Heq. simpl in Heq. lia.
  - simpl in Heq. injection Heq as -> Heq. f_equal. by apply IH.
Qed.

Lemma append_inj_l (s a b : string) : s +:+ a = s +:+ b -> a = b.
Proof.
  induction s as [|c s IH]; simpl; intros Heq; [exact Heq|].
  injection Heq as Heq. by apply IH.
Qed.

(** X20: the code is spliced into the document as it is, between a fixed
    beginning and a fixed end: two different buffers never give the same
    document, and the document is longer than the code by a constant. *)
Theorem generatePreviewHTML_injective (code1 code2 : string) :
  (Preview.generatePreviewHTML code1 = Preview.generatePreviewHTML code2 ->
   code1 = code2)
  ∧ String.length (Preview.generatePreviewHTML code1)
    = String.length Preview.html_before_code + String.length code1
      + String.length Preview.html_after_code.
Proof.
  unfold Preview.generatePreviewHTML. split.
  - intros Heq. apply append_inj_l in Heq. by apply append_inj_r in Heq.
  - rewrite !append_length. lia.
Qed.

(** ** The further properties at concrete pages and widgets *)

Lemma clicks_leave_other_keys_witness :
  "lang" ≠ "data-theme" ∧ "visits" ≠ "theme"
  ∧ Theme.attributes (clicks 3 Samples.first_visit) !! "lang"
    = Theme.attributes Samples.first_visit !! "lang"
  ∧ Theme.localStorage (clicks 3 Samples.first_visit) !! "visits"
    = Theme.localStorage Samples.first_visit !! "visits".
Proof.
  assert (Ha : "lang" ≠ "data-theme") by discriminate.
  assert (Hk : "visits" ≠ "theme") by discriminate.
  split; [exact Ha|]. split; [exact Hk|].
  exact (clicks_leave_other_keys 3 Samples.first_visit "lang" "visits" Ha Hk).
Defined.

Lemma light_page_shows_sun_witness :
  is_light (clicks 2 (Theme.onDOMContentLoaded true Samples.light_page)) = true
  ∧ Theme.textContent (clicks 2 (Theme.onDOMContentLoaded true Samples.light_page))
    = Theme.sun.
Proof.
  assert (Hl : is_light (clicks 2 (Theme.onDOMContentLoaded true Samples.light_page))
               = true).
  { rewrite clicks_is_light. reflexivity. }
  split; [exact Hl|].
  exact (proj1 (light_page_shows_sun 2 Samples.light_page Hl)).
Defined.

Lemma options_immutable_witness :
  construct true default_options = Some Samples.widget
  ∧ options (run [OpSetCode "line(0, 0, 9, 9)"; OpRunCode; OpMessage Samples.hello]
                 Samples.widget)
    = default_options.
Proof.
  split; [reflexivity|].
  exact (options_immutable default_options Samples.widget
           [OpSetCode "line(0, 0, 9, 9)"; OpRunCode; OpMessage Samples.hello]
           eq_refl).
Defined.


Lemma loadExample_without_list_witness :
  construct true default_options = Some Samples.widget
  ∧ existsb sets_examples [OpSetExamples (B := string) []; OpRunCode] = false
  ∧ fst (loadExample 0 (run [OpSetExamples []; OpRunCode] Samples.widget))
    = Throw "TypeError: Cannot read properties of undefined".
Proof.
  split; [reflexivity|]. split; [reflexivity|].
  exact (f_equal fst
           (proj1 (loadExample_without_list default_options Samples.widget
                     [OpSetExamples []; OpRunCode] 0 eq_refl) eq_refl)).
Defined.


Lemma construct_ignores_initialCode_witness :
  construct true Cases.without_autoRun
  = Some (created (B := string) Cases.without_autoRun)
  ∧ autoRun Cases.without_autoRun = false
  ∧ getValue (editor (created (B := string) Cases.without_autoRun)) = "".
Proof.
  split; [reflexivity|]. split; [reflexivity|].
  exact (f_equal getValue
           (proj1 (proj2 (construct_ignores_initialCode Cases.without_autoRun
                            (created (B := string) Cases.without_autoRun)
                            eq_refl (or_introl eq_refl))))).
Defined.



Lemma one_tab_active_witness :
  construct true default_options = Some Samples.widget
  ∧ (examplesTabs (run [OpSetExamples Samples.two_examples; OpLoadExample 1]
                       Samples.widget) = []
     ∨ one_active
         (examplesTabs (run [OpSetExamples Samples.two_examples; OpLoadExample 1]
                            Samples.widget))).
Proof.
  split; [reflexivity|].
  exact (one_tab_active default_options Samples.widget
           [OpSetExamples Samples.two_examples; OpLoadExample 1] eq_refl).
Defined.

Lemma failed_handler_reaches_onerror_witness :
  Preview.outcome Cases.throws_null = Some Cases.null_thrown
  ∧ Preview.setup (Preview.load Cases.throws_null 42) = None.
Proof.
  split; [reflexivity|].
  exact (proj1 (failed_handler_reaches_onerror Cases.throws_null Cases.null_thrown
                  _ 42 eq_refl eq_refl)).
Defined.



Lemma generatePreviewHTML_injective_witness :
  Preview.generatePreviewHTML "noLoop()" = Preview.generatePreviewHTML "noLoop()"
  ∧ "noLoop()" = "noLoop()".
Proof.
  split; [reflexivity|].
  exact (proj1 (generatePreviewHTML_injective "noLoop()" "noLoop()") eq_refl).
Defined.
